(** * Verification of the Anthropic adapter of snowgander
    (src/src/vendors/anthropic.ts), as a shallow embedding. *)

From Stdlib Require Import String Ascii List ZArith QArith Bool Lia.
Import ListNotations.
Close Scope Q_scope.
Open Scope string_scope.
Set Warnings "-register-all".

(** ** JavaScript values, errors and the operations the adapter uses *)

(** JSON data: what [JSON.parse] produces and [JSON.stringify] consumes.
    Numbers are restricted to integers (all numbers the claims touch). *)
Inductive json : Type :=
| JNull
| JBool (b : bool)
| JNum (z : Z)
| JStr (s : string)
| JArr (vs : list json)
| JObj (kvs : list (string * json)).

(** An arbitrary JS value as far as the tool-schema code inspects it. *)
Inductive jsval : Type :=
| JSUndefined
| JSValue (j : json).

Definition typeof (v : jsval) : string :=
  match v with
  | JSUndefined => "undefined"
  | JSValue JNull => "object"
  | JSValue (JBool _) => "boolean"
  | JSValue (JNum _) => "number"
  | JSValue (JStr _) => "string"
  | JSValue (JArr _) => "object"
  | JSValue (JObj _) => "object"
  end.

(** Thrown JS errors. *)
Inductive js_error : Type :=
| SyntaxError (msg : string)
| TypeError (msg : string)
| Error (msg : string).

(** A computation that returns a value or throws (also: a rejected promise). *)
Inductive res (A : Type) : Type :=
| Ok (a : A)
| Throw (e : js_error).
Arguments Ok {A} a.
Arguments Throw {A} e.

Definition bind {A B} (m : res A) (k : A -> res B) : res B :=
  match m with
  | Ok a => k a
  | Throw e => Throw e
  end.
Notation "x <- m ;; k" := (bind m (fun x => k))
  (at level 61, m at next level, right associativity).

(** [try { body } catch (e) { handler }] *)
Definition try_catch {A} (body : res A) (handler : js_error -> res A) : res A :=
  match body with
  | Ok a => Ok a
  | Throw e => handler e
  end.

(** [Array.prototype.map] with a callback that may throw. *)
Fixpoint map_res {A B} (f : A -> res B) (l : list A) : res (list B) :=
  match l with
  | [] => Ok []
  | x :: xs => y <- f x;; ys <- map_res f xs;; Ok (y :: ys)
  end.

(** [key in v]: a TypeError on primitives, own keys on objects; arrays and
    [null]-free objects have no ["type"] key unless it is listed. *)
Definition js_in (key : string) (v : json) : res bool :=
  match v with
  | JObj kvs => Ok (existsb (fun kv => String.eqb (fst kv) key) kvs)
  | JArr _ => Ok false
  | _ => Throw (TypeError "Cannot use 'in' operator to search for a key in a primitive")
  end.

(** Truthiness of an optional JS number ([undefined], [0] are falsy). *)
Definition truthy_Z (o : option Z) : bool :=
  match o with
  | Some n => negb (Z.eqb n 0)
  | None => false
  end.

Definition truthy_Q (o : option Q) : bool :=
  match o with
  | Some q => negb (Qeq_bool q 0)
  | None => false
  end.

(** [n || d] on an optional number. *)
Definition or_Z (o : option Z) (d : Z) : Z :=
  match o with
  | Some n => if Z.eqb n 0 then d else n
  | None => d
  end.

(** [n || undefined] on an optional number. *)
Definition or_undefined_Z (o : option Z) : option Z :=
  match o with
  | Some n => if Z.eqb n 0 then None else Some n
  | None => None
  end.

(** [s || undefined] on an optional string. *)
Definition or_undefined_str (o : option string) : option string :=
  match o with
  | Some s => if String.eqb s "" then None else Some s
  | None => None
  end.

(** *** [JSON.stringify] on JSON data *)

Definition dq : ascii := "034"%char.
Definition bs : ascii := "092"%char.

Definition hex_digit (n : nat) : ascii :=
  match n with
  | 0 => "0" | 1 => "1" | 2 => "2" | 3 => "3" | 4 => "4" | 5 => "5"
  | 6 => "6" | 7 => "7" | 8 => "8" | 9 => "9" | 10 => "a" | 11 => "b"
  | 12 => "c" | 13 => "d" | 14 => "e" | _ => "f"
  end%char.

(** Escape of one character inside a JSON string literal. *)
Definition escape_char (c : ascii) : string :=
  let n := nat_of_ascii c in
  if Nat.eqb n 34 then String bs (String dq EmptyString)
  else if Nat.eqb n 92 then String bs (String bs EmptyString)
  else if Nat.eqb n 8 then String bs "b"
  else if Nat.eqb n 12 then String bs "f"
  else if Nat.eqb n 10 then String bs "n"
  else if Nat.eqb n 13 then String bs "r"
  else if Nat.eqb n 9 then String bs "t"
  else if Nat.ltb n 32 then
    String bs ("u00" ++ String (hex_digit (Nat.div n 16)) (String (hex_digit (Nat.modulo n 16)) EmptyString))
  else String c EmptyString.

Fixpoint escape (s : string) : string :=
  match s with
  | EmptyString => EmptyString
  | String c rest => escape_char c ++ escape rest
  end.

Definition quote (s : string) : string :=
  String dq (escape s ++ String dq EmptyString).

Fixpoint digits_of_N (fuel : nat) (n : N) (acc : string) : string :=
  match fuel with
  | O => acc
  | S fuel' =>
      let acc' := String (hex_digit (N.to_nat (N.modulo n 10))) acc in
      if N.ltb n 10 then acc' else digits_of_N fuel' (N.div n 10) acc'
  end.

Definition decimal_of_Z (z : Z) : string :=
  let body := digits_of_N (S (Pos.size_nat (Z.to_pos (Z.abs z + 1)))) (Z.abs_N z) EmptyString in
  if Z.ltb z 0 then "-" ++ body else body.

Fixpoint join (sep : string) (l : list string) : string :=
  match l with
  | [] => EmptyString
  | [x] => x
  | x :: xs => x ++ sep ++ join sep xs
  end.

Fixpoint JSON_stringify (j : json) : string :=
  match j with
  | JNull => "null"
  | JBool b => if b then "true" else "false"
  | JNum z => decimal_of_Z z
  | JStr s => quote s
  | JArr vs =>
      "[" ++ join "," ((fix elems (l : list json) : list string :=
                          match l with
                          | [] => []
                          | v :: l' => JSON_stringify v :: elems l'
                          end) vs) ++ "]"
  | JObj kvs =>
      "{" ++ join "," ((fix members (l : list (string * json)) : list string :=
                          match l with
                          | [] => []
                          | (k, v) :: l' => (quote k ++ ":" ++ JSON_stringify v) :: members l'
                          end) kvs) ++ "}"
  end.

(** ** Canonical data model (the shared types module is not part of the
    sources; its shapes follow the spec's data model and the field names
    used by anthropic.ts) *)

(** [ContentBlock]: the tagged union of canonical content. *)
Inductive ContentBlock : Type :=
| TextBlock (text : string)
| ImageBlock (url : string)
| ImageDataBlock (mimeType : string) (base64Data : string)
| ThinkingBlock (thinking : string) (signature : string)
| RedactedThinkingBlock (data : string)
| ToolUseBlock (name : string) (input : string).

(** The object a block is at run time, key order as written. *)
Definition block_to_json (b : ContentBlock) : json :=
  match b with
  | TextBlock t => JObj [("type", JStr "text"); ("text", JStr t)]
  | ImageBlock u => JObj [("type", JStr "image"); ("url", JStr u)]
  | ImageDataBlock m d =>
      JObj [("type", JStr "image_data"); ("mimeType", JStr m); ("base64Data", JStr d)]
  | ThinkingBlock th sg =>
      JObj [("type", JStr "thinking"); ("thinking", JStr th); ("signature", JStr sg)]
  | RedactedThinkingBlock d => JObj [("type", JStr "redacted_thinking"); ("data", JStr d)]
  | ToolUseBlock n i => JObj [("type", JStr "tool_use"); ("name", JStr n); ("input", JStr i)]
  end.

(** [Message.content] is either a plain string or a block sequence. *)
Inductive MessageContent : Type :=
| ContentString (s : string)
| ContentBlocks (blocks : list ContentBlock).

Record Message : Type := mkMessage {
  role : string;
  content : MessageContent
}.

Record UsageResponse : Type := mkUsage {
  inputCost : Q;
  outputCost : Q;
  totalCost : Q
}.

Record AIResponse : Type := mkAIResponse {
  ai_role : string;
  ai_content : list ContentBlock;
  ai_usage : option UsageResponse
}.

Record ChatResponse : Type := mkChatResponse {
  cr_role : string;
  cr_content : list ContentBlock;
  cr_usage : option UsageResponse
}.

(** [MCPTool]: a tool definition; [input_schema] may be anything at run time. *)
Record MCPTool : Type := mkMCPTool {
  tool_name : string;
  tool_description : string;
  input_schema : jsval
}.

Record Chat : Type := mkChat {
  chat_model : string;
  responseHistory : list Message;
  prompt : string;
  systemPrompt : option string;
  maxTokens : option Z;
  budgetTokens : option Z;
  mcpAvailableTools : option (list MCPTool)
}.

Record ModelConfig : Type := mkModelConfig {
  apiName : string;
  isVision : bool;
  isImageGeneration : bool;
  isThinking : bool;
  mc_inputTokenCost : option Q;
  mc_outputTokenCost : option Q
}.

Record VendorConfig : Type := mkVendorConfig {
  apiKey : string;
  baseURL : option string
}.

(** ** The vendor (Anthropic SDK) wire format *)

Inductive AnthropicRole : Type := RoleUser | RoleAssistant.

(** Outbound content block params the adapter emits. *)
Inductive ContentBlockParam : Type :=
| ParamText (text : string)
| ParamThinking (thinking : string) (signature : string).

Inductive WireContent : Type :=
| WireString (s : string)
| WireBlocks (blocks : list ContentBlockParam).

Record WireMessage : Type := mkWireMessage {
  wire_role : AnthropicRole;
  wire_content : WireContent
}.

Record AnthropicTool : Type := mkAnthropicTool {
  at_name : string;
  at_description : string;
  at_input_schema : json
}.

(** [messages.create] request; [thinking] is [Some budget_tokens] when the
    spread adds [{type: "enabled", budget_tokens}]. *)
Record MessageCreateParams : Type := mkParams {
  req_model : string;
  req_messages : list WireMessage;
  req_system : option string;
  req_max_tokens : Z;
  req_thinking : option Z;
  req_tools : option (list AnthropicTool)
}.

(** Inbound response content blocks. *)
Inductive VendorBlock : Type :=
| VText (text : string)
| VThinking (thinking : string) (signature : string)
| VRedactedThinking (data : string)
| VToolUse (id : string) (name : string) (input : json)
| VOther (type_tag : string).

Record VendorUsage : Type := mkVendorUsage {
  input_tokens : option Z;
  output_tokens : option Z
}.

Record VendorMessage : Type := mkVendorMessage {
  resp_content : list VendorBlock;
  resp_usage : VendorUsage
}.

(** ** The adapter *)

Record AnthropicAdapter : Type := mkAdapter {
  isVisionCapable : bool;
  isImageGenerationCapable : bool;
  isThinkingCapable : bool;
  inputTokenCost : option Q;
  outputTokenCost : option Q
}.

(** [constructor(config, modelConfig)]; the client built from [config] is
    the [client] argument of the operations below. *)
Definition AnthropicAdapter_new (config : VendorConfig) (mc : ModelConfig) : AnthropicAdapter :=
  let stored := truthy_Q (mc_inputTokenCost mc) && truthy_Q (mc_outputTokenCost mc) in
  {| isVisionCapable := isVision mc;
     isImageGenerationCapable := isImageGeneration mc;
     isThinkingCapable := isThinking mc;
     inputTokenCost := if stored then mc_inputTokenCost mc else None;
     outputTokenCost := if stored then mc_outputTokenCost mc else None |}.

(** Modelled from the spec: [computeResponseCost] (src/utils is not part of
    the sources), "cost = tokenCount * (ratePerMillionTokens / 1_000_000)",
    in exact rational arithmetic. *)
Definition computeResponseCost (tokens : Z) (ratePerMillion : Q) : Q :=
  (inject_Z tokens * (ratePerMillion / inject_Z 1000000))%Q.

Record AIRequestOptions : Type := mkOptions {
  opt_model : string;
  opt_messages : list Message;
  opt_maxTokens : option Z;
  opt_budgetTokens : option Z;
  opt_systemPrompt : option string;
  opt_thinkingMode : bool;
  opt_tools : option (list AnthropicTool)
}.

(** Outbound: the [reduce] callback over one block. *)
Definition format_block (acc : list ContentBlockParam) (b : ContentBlock) : list ContentBlockParam :=
  match b with
  | TextBlock t => acc ++ [ParamText t]
  | ThinkingBlock th sg => acc ++ [ParamThinking th sg]
  | _ => acc
  end.

(** Outbound: the [messages.map] callback. *)
Definition format_message (msg : Message) : WireMessage :=
  let r := if String.eqb (role msg) "assistant" then RoleAssistant else RoleUser in
  match content msg with
  | ContentString s => {| wire_role := r; wire_content := WireString s |}
  | ContentBlocks blocks =>
      let mappedContent := fold_left format_block blocks [] in
      {| wire_role := r;
         wire_content :=
           if Nat.ltb 0 (length mappedContent) then WireBlocks mappedContent
           else WireString (JSON_stringify (JArr (map block_to_json blocks))) |}
  end.

(** Inbound: the [for (const block of response.content)] loop. *)
Fixpoint map_response_content (blocks : list VendorBlock) : list ContentBlock :=
  match blocks with
  | [] => []
  | VThinking th _ :: rest => ThinkingBlock th "anthropic" :: map_response_content rest
  | VText t :: rest => TextBlock t :: map_response_content rest
  | VToolUse _ n i :: rest => ToolUseBlock n (JSON_stringify i) :: map_response_content rest
  | _ :: rest => map_response_content rest
  end.

(** The usage guard and computation. *)
Definition compute_usage (a : AnthropicAdapter) (u : VendorUsage) : option UsageResponse :=
  if truthy_Z (input_tokens u) && truthy_Z (output_tokens u)
     && truthy_Q (inputTokenCost a) && truthy_Q (outputTokenCost a) then
    match input_tokens u, output_tokens u, inputTokenCost a, outputTokenCost a with
    | Some it, Some ot, Some ic, Some oc =>
        let ic' := computeResponseCost it ic in
        let oc' := computeResponseCost ot oc in
        Some {| inputCost := ic'; outputCost := oc'; totalCost := (ic' + oc')%Q |}
    | _, _, _, _ => None
    end
  else None.

(** The request passed to [this.client.messages.create]. *)
Definition build_request (a : AnthropicAdapter) (o : AIRequestOptions) : MessageCreateParams :=
  {| req_model := opt_model o;
     req_messages := map format_message (opt_messages o);
     req_system := opt_systemPrompt o;
     req_max_tokens := or_Z (opt_maxTokens o) 1024;
     req_thinking :=
       if opt_thinkingMode o && isThinkingCapable a then
         Some (or_Z (opt_budgetTokens o) (Z.div (or_Z (opt_maxTokens o) 1024) 2))
       else None;
     req_tools := opt_tools o |}.

Section Operations.

(** [this.client.messages.create]: the one vendor call; it may reject. *)
Variable client : MessageCreateParams -> res VendorMessage.

Definition generateResponse (a : AnthropicAdapter) (o : AIRequestOptions) : res AIResponse :=
  response <- client (build_request a o);;
  let usage := compute_usage a (resp_usage response) in
  let contentBlocks := map_response_content (resp_content response) in
  Ok {| ai_role := "assistant"; ai_content := contentBlocks; ai_usage := usage |}.

Definition generateImage (a : AnthropicAdapter) (chat : Chat) : res string :=
  Throw (Error "Image generation not supported by Anthropic").

(** [JSON.parse]: a JS builtin, left abstract; a parse failure throws. *)
Variable JSON_parse : string -> res json.

Definition fallbackSchema : json :=
  JObj [("type", JStr "object"); ("properties", JObj [])].

Definition is_object_not_null (v : jsval) : bool :=
  String.eqb (typeof v) "object" && negb (match v with JSValue JNull => true | _ => false end).

(** The schema selection of the [mcpAvailableTools.map] callback. *)
Definition select_schema (tool : MCPTool) : res json :=
  match input_schema tool with
  | JSValue (JStr s) =>
      try_catch
        (parsedSchema <- JSON_parse s;;
         if is_object_not_null (JSValue parsedSchema) then
           has_type <- js_in "type" parsedSchema;;
           if has_type then Ok parsedSchema else Ok fallbackSchema
         else Ok fallbackSchema)
        (fun _ => Ok fallbackSchema)
  | v =>
      if is_object_not_null v then
        match v with
        | JSValue j =>
            has_type <- js_in "type" j;;
            if has_type then Ok j else Ok fallbackSchema
        | JSUndefined => Ok fallbackSchema
        end
      else Ok fallbackSchema
  end.

Definition map_tool (tool : MCPTool) : res AnthropicTool :=
  schemaObject <- select_schema tool;;
  Ok {| at_name := tool_name tool; at_description := tool_description tool;
        at_input_schema := schemaObject |}.

Definition format_tools (tools : option (list MCPTool)) : res (option (list AnthropicTool)) :=
  match tools with
  | Some ((_ :: _) as ts) => formatted <- map_res map_tool ts;; Ok (Some formatted)
  | _ => Ok None
  end.

Definition prompt_message (p : string) : Message :=
  {| role := "user"; content := ContentBlocks [TextBlock p] |}.

Definition messages_to_send (chat : Chat) : list Message :=
  responseHistory chat ++ (if String.eqb (prompt chat) "" then [] else [prompt_message (prompt chat)]).

Definition sendChat_options (chat : Chat) (formattedTools : option (list AnthropicTool)) : AIRequestOptions :=
  {| opt_model := chat_model chat;
     opt_messages := messages_to_send chat;
     opt_maxTokens := or_undefined_Z (maxTokens chat);
     opt_budgetTokens := or_undefined_Z (budgetTokens chat);
     opt_systemPrompt := or_undefined_str (systemPrompt chat);
     opt_thinkingMode := Z.ltb 0 (match budgetTokens chat with Some n => n | None => 0 end);
     opt_tools := formattedTools |}.

Definition sendChat (a : AnthropicAdapter) (chat : Chat) : res ChatResponse :=
  formattedTools <- format_tools (mcpAvailableTools chat);;
  response <- generateResponse a (sendChat_options chat formattedTools);;
  Ok {| cr_role := ai_role response; cr_content := ai_content response;
        cr_usage := ai_usage response |}.

End Operations.

(** [adapter.sendMCPChat(chat, tool)]. The class declares only the methods
    below; line 285 records that [sendMCPChat] was removed. Reading the
    missing property yields [undefined], and calling it throws a TypeError. *)
Definition AnthropicAdapter_methods : list string :=
  ["generateResponse"; "generateImage"; "sendChat"].

Definition not_a_function (name : string) : js_error :=
  TypeError ("adapter." ++ name ++ " is not a function").

Definition call_sendMCPChat (a : AnthropicAdapter) (chat : Chat) (tool : MCPTool) : res ChatResponse :=
  Throw (not_a_function "sendMCPChat").

(** The fixed explanatory message the spec attributes to [sendMCPChat]. *)
Definition mcp_not_supported_message : string :=
  "Direct MCP tool execution is not handled within the AIVendorAdapter. The calling application must manage tool definition, execution, and result submission.".

(** ** Auxiliary views used in the statements *)

(** The blocks the outbound [reduce] keeps, in order. *)
Fixpoint out_blocks (l : list ContentBlock) : list ContentBlockParam :=
  match l with
  | [] => []
  | TextBlock t :: rest => ParamText t :: out_blocks rest
  | ThinkingBlock th sg :: rest => ParamThinking th sg :: out_blocks rest
  | _ :: rest => out_blocks rest
  end.

Definition supported_by_anthropic (b : ContentBlock) : bool :=
  match b with
  | TextBlock _ | ThinkingBlock _ _ => true
  | _ => false
  end.

(** The vendor echoing an outbound block back in its response. *)
Definition echo (p : ContentBlockParam) : VendorBlock :=
  match p with
  | ParamText t => VText t
  | ParamThinking th sg => VThinking th sg
  end.

(** An outbound block param is the vendor form of a canonical block: the
    same kind, with the same text, thinking text and signature. *)
Definition sent_as (b : ContentBlock) (p : ContentBlockParam) : Prop :=
  match b, p with
  | TextBlock t, ParamText t' => t' = t
  | ThinkingBlock th sg, ParamThinking th' sg' => th' = th /\ sg' = sg
  | _, _ => False
  end.

(** What the inbound path makes of an echoed block: the thinking text is
    kept and the signature becomes the adapter's literal. *)
Definition resigned (b : ContentBlock) : ContentBlock :=
  match b with
  | ThinkingBlock th _ => ThinkingBlock th "anthropic"
  | b => b
  end.

Definition recognized_inbound (v : VendorBlock) : bool :=
  match v with
  | VText _ | VThinking _ _ | VToolUse _ _ _ => true
  | _ => false
  end.

Definition thinking_signatures (l : list ContentBlock) : list string :=
  flat_map (fun b => match b with ThinkingBlock _ sg => [sg] | _ => [] end) l.

(** ** Lemmas *)

Lemma fold_format_block (l : list ContentBlock) (acc : list ContentBlockParam) :
  fold_left format_block l acc = (acc ++ out_blocks l)%list.
Proof.
  revert acc; induction l as [|b l IH]; intro acc; simpl.
  - now rewrite app_nil_r.
  - destruct b; simpl; rewrite IH; rewrite <- ?app_assoc; reflexivity.
Qed.

Lemma format_message_blocks (r : string) (l : list ContentBlock) :
  format_message (mkMessage r (ContentBlocks l)) =
  {| wire_role := if String.eqb r "assistant" then RoleAssistant else RoleUser;
     wire_content :=
       match out_blocks l with
       | [] => WireString (JSON_stringify (JArr (map block_to_json l)))
       | w => WireBlocks w
       end |}.
Proof.
  unfold format_message; simpl. rewrite fold_format_block; simpl.
  destruct (out_blocks l); reflexivity.
Qed.

Lemma out_blocks_supported (l : list ContentBlock) :
  forallb supported_by_anthropic l = true -> map echo (out_blocks l) = map (fun b =>
    match b with TextBlock t => VText t | ThinkingBlock th sg => VThinking th sg | _ => VOther "" end) l.
Proof.
  induction l as [|b l IH]; simpl; [reflexivity|].
  intro H; apply andb_prop in H as [Hb Hl].
  destruct b; try discriminate; simpl; rewrite IH by exact Hl; reflexivity.
Qed.

Lemma out_blocks_sent_as (l : list ContentBlock) :
  forallb supported_by_anthropic l = true -> Forall2 sent_as l (out_blocks l).
Proof.
  induction l as [|b l IH]; simpl; [constructor|].
  intro H; apply andb_prop in H as [Hb Hl].
  destruct b; try discriminate; simpl; constructor; simpl; auto.
Qed.

Lemma map_response_content_echo (l : list ContentBlock) :
  forallb supported_by_anthropic l = true ->
  map_response_content (map echo (out_blocks l)) = map resigned l.
Proof.
  induction l as [|b l IH]; simpl; [reflexivity|].
  intro H; apply andb_prop in H as [Hb Hl].
  destruct b; try discriminate; simpl; rewrite IH by exact Hl; reflexivity.
Qed.

Lemma out_blocks_nil_supported (l : list ContentBlock) :
  forallb supported_by_anthropic l = true -> out_blocks l = [] -> l = [].
Proof.
  destruct l as [|b l]; [reflexivity|]; simpl.
  intro H; apply andb_prop in H as [Hb _].
  destruct b; try discriminate; simpl; discriminate.
Qed.

Lemma map_response_content_app (l1 l2 : list VendorBlock) :
  map_response_content (l1 ++ l2)%list = (map_response_content l1 ++ map_response_content l2)%list.
Proof.
  induction l1 as [|v l1 IH]; simpl; [reflexivity|].
  destruct v; simpl; rewrite ?IH; reflexivity.
Qed.

Lemma string_app_nonempty (c : ascii) (s t : string) :
  String c s ++ t <> EmptyString.
Proof. simpl; discriminate. Qed.

(** ** Claims *)

(** C1 (as stated, refuted): outbound mapping of the text/thinking block
    sequence [[Thinking "t" "sig"]] followed by the vendor echoing the block
    back does not give the same Thinking block: the signature comes back as
    ["anthropic"], not ["sig"]. *)
Lemma C1_thinking_signature_not_roundtripped :
  wire_content (format_message (mkMessage "user" (ContentBlocks [ThinkingBlock "t" "sig"])))
    = WireBlocks [ParamThinking "t" "sig"] /\
  map_response_content (map echo [ParamThinking "t" "sig"]) = [ThinkingBlock "t" "anthropic"] /\
  [ThinkingBlock "t" "anthropic"] <> [ThinkingBlock "t" "sig"].
Proof.
  split; [reflexivity|]. split; [reflexivity|]. discriminate.
Qed.

(** C1 (amended): for every non-empty sequence of Text and Thinking blocks,
    the outbound mapping sends exactly those blocks, in order, each with its
    text (and, for Thinking, its thinking text and signature); the vendor's
    echo of them mapped inbound gives back a Text block with the same text for
    every Text block and a Thinking block with the same thinking text for
    every Thinking block, with the signature replaced by the adapter's
    literal ["anthropic"]. *)
Theorem C1_roundtrip_text_and_thinking_text (r : string) (l : list ContentBlock)
  (Hne : l <> []) (Hsupp : forallb supported_by_anthropic l = true) :
  wire_content (format_message (mkMessage r (ContentBlocks l))) = WireBlocks (out_blocks l) /\
  Forall2 sent_as l (out_blocks l) /\
  map_response_content (map echo (out_blocks l)) = map resigned l.
Proof.
  split; [|split].
  - rewrite format_message_blocks; simpl.
    destruct (out_blocks l) eqn:E.
    + exfalso; apply Hne; now apply out_blocks_nil_supported.
    + reflexivity.
  - now apply out_blocks_sent_as.
  - now apply map_response_content_echo.
Qed.

Lemma C1_roundtrip_witness :
  [TextBlock "hi"; ThinkingBlock "t" "sig"] <> [] /\
  forallb supported_by_anthropic [TextBlock "hi"; ThinkingBlock "t" "sig"] = true /\
  wire_content (format_message (mkMessage "user" (ContentBlocks [TextBlock "hi"; ThinkingBlock "t" "sig"])))
    = WireBlocks (out_blocks [TextBlock "hi"; ThinkingBlock "t" "sig"]) /\
  Forall2 sent_as [TextBlock "hi"; ThinkingBlock "t" "sig"] (out_blocks [TextBlock "hi"; ThinkingBlock "t" "sig"]) /\
  map_response_content (map echo (out_blocks [TextBlock "hi"; ThinkingBlock "t" "sig"]))
    = map resigned [TextBlock "hi"; ThinkingBlock "t" "sig"].
Proof.
  split; [discriminate|]. split; [reflexivity|].
  apply C1_roundtrip_text_and_thinking_text; [discriminate | reflexivity].
Defined.

(** C2: a message whose blocks are all dropped by the outbound mapping (for
    instance only image blocks) is sent with a single string content, the
    [JSON.stringify] of the original blocks, which the vendor reads as one
    text block; that string is never empty. *)
Theorem C2_empty_after_filter_falls_back (r : string) (l : list ContentBlock)
  (Hdropped : out_blocks l = []) :
  wire_content (format_message (mkMessage r (ContentBlocks l)))
    = WireString (JSON_stringify (JArr (map block_to_json l))) /\
  JSON_stringify (JArr (map block_to_json l)) <> EmptyString.
Proof.
  split.
  - rewrite format_message_blocks; simpl; now rewrite Hdropped.
  - simpl. apply string_app_nonempty.
Qed.

Lemma C2_image_only_witness :
  out_blocks [ImageBlock "http://example.com/image.png"; ImageDataBlock "image/jpeg" "AAAA"] = [] /\
  wire_content (format_message (mkMessage "user"
      (ContentBlocks [ImageBlock "http://example.com/image.png"; ImageDataBlock "image/jpeg" "AAAA"])))
    = WireString (JSON_stringify (JArr (map block_to_json
        [ImageBlock "http://example.com/image.png"; ImageDataBlock "image/jpeg" "AAAA"]))) /\
  JSON_stringify (JArr (map block_to_json
        [ImageBlock "http://example.com/image.png"; ImageDataBlock "image/jpeg" "AAAA"])) <> EmptyString.
Proof.
  split; [reflexivity|].
  apply C2_empty_after_filter_falls_back; reflexivity.
Defined.

(** C9: outbound, every Thinking block is sent with its own thinking text and
    signature, in place; inbound, every vendor reasoning block (with or
    without a signature) becomes a Thinking block signed ["anthropic"], so
    every Thinking block of a canonical response carries a non-empty
    signature. *)
Theorem C9_thinking_signatures (r th sg : string) (l1 l2 : list ContentBlock) (vs : list VendorBlock) :
  out_blocks (l1 ++ ThinkingBlock th sg :: l2)%list
    = (out_blocks l1 ++ ParamThinking th sg :: out_blocks l2)%list /\
  wire_content (format_message (mkMessage r (ContentBlocks (l1 ++ ThinkingBlock th sg :: l2)%list)))
    = WireBlocks (out_blocks l1 ++ ParamThinking th sg :: out_blocks l2)%list /\
  Forall (fun s => s = "anthropic" /\ s <> EmptyString) (thinking_signatures (map_response_content vs)).
Proof.
  assert (Hout : forall l, out_blocks (l ++ ThinkingBlock th sg :: l2)%list
                   = (out_blocks l ++ ParamThinking th sg :: out_blocks l2)%list).
  { induction l as [|b l IH]; simpl; [reflexivity|]; destruct b; simpl; rewrite ?IH; reflexivity. }
  split; [apply Hout|]. split.
  - rewrite format_message_blocks; simpl; rewrite Hout.
    destruct (out_blocks l1); reflexivity.
  - induction vs as [|v vs IH]; simpl; [constructor|].
    destruct v; simpl; try exact IH.
    constructor; [split; [reflexivity | discriminate] | exact IH].
Qed.

(** C3 (as stated, refuted): invoking [sendMCPChat] on the Anthropic adapter
    does not fail with an Error carrying the fixed explanatory message: the
    class has no such method, and the call throws a TypeError. *)
Lemma C3_sendMCPChat_not_fixed_message :
  call_sendMCPChat (AnthropicAdapter_new (mkVendorConfig "k" None)
                      (mkModelConfig "claude" true false true None None))
    (mkChat "claude" [] "test" None None None None)
    (mkMCPTool "dummy" "" JSUndefined)
    = Throw (TypeError "adapter.sendMCPChat is not a function") /\
  Throw (A := ChatResponse) (TypeError "adapter.sendMCPChat is not a function")
    <> Throw (Error mcp_not_supported_message).
Proof. split; [reflexivity | discriminate]. Qed.

(** C3 (amended): the Anthropic adapter declares no [sendMCPChat] method;
    invoking it fails for every adapter, chat and tool with the runtime's
    missing-method TypeError (not the fixed NotSupported message), without
    any vendor call. *)
Theorem C3_sendMCPChat_missing_method (a : AnthropicAdapter) (chat : Chat) (tool : MCPTool) :
  ~ In "sendMCPChat" AnthropicAdapter_methods /\
  call_sendMCPChat a chat tool = Throw (not_a_function "sendMCPChat").
Proof.
  split; [|reflexivity].
  simpl; intros [H|[H|[H|[]]]]; discriminate.
Qed.

(** C8: [generateImage] on an adapter built from a ModelConfig whose
    image-generation flag is false always rejects with the adapter's own
    "not supported" Error, for every chat. *)
Theorem C8_generateImage_unsupported (config : VendorConfig) (mc : ModelConfig) (chat : Chat)
  (Hcap : isImageGeneration mc = false) :
  isImageGenerationCapable (AnthropicAdapter_new config mc) = false /\
  generateImage (AnthropicAdapter_new config mc) chat
    = Throw (Error "Image generation not supported by Anthropic").
Proof. split; [exact Hcap | reflexivity]. Qed.

Lemma C8_generateImage_witness :
  isImageGeneration (mkModelConfig "claude-3-opus-20240229" true false true None None) = false /\
  isImageGenerationCapable (AnthropicAdapter_new (mkVendorConfig "k" None)
      (mkModelConfig "claude-3-opus-20240229" true false true None None)) = false /\
  generateImage (AnthropicAdapter_new (mkVendorConfig "k" None)
      (mkModelConfig "claude-3-opus-20240229" true false true None None))
      (mkChat "claude" [] "test" None None None None)
    = Throw (Error "Image generation not supported by Anthropic").
Proof.
  split; [reflexivity|].
  apply (C8_generateImage_unsupported (mkVendorConfig "k" None)
           (mkModelConfig "claude-3-opus-20240229" true false true None None)
           (mkChat "claude" [] "test" None None None None)); reflexivity.
Defined.

Lemma generateResponse_ok (client : MessageCreateParams -> res VendorMessage)
  (a : AnthropicAdapter) (o : AIRequestOptions) (resp : VendorMessage) :
  client (build_request a o) = Ok resp ->
  generateResponse client a o =
    Ok (mkAIResponse "assistant" (map_response_content (resp_content resp))
                     (compute_usage a (resp_usage resp))).
Proof. intro H; unfold generateResponse; rewrite H; reflexivity. Qed.

Lemma truthy_Z_true (o : option Z) : truthy_Z o = true -> exists n, o = Some n /\ n <> 0%Z.
Proof.
  destruct o as [n|]; simpl; [|discriminate].
  intro H; exists n; split; [reflexivity|]. now apply negb_true_iff, Z.eqb_neq in H.
Qed.

Lemma truthy_Q_true (o : option Q) : truthy_Q o = true -> exists q, o = Some q /\ ~ (q == 0)%Q.
Proof.
  destruct o as [q|]; simpl; [|discriminate].
  intros H; exists q; split; [reflexivity|].
  intro Hq; apply Qeq_bool_iff in Hq; rewrite Hq in H; discriminate.
Qed.

Lemma truthy_Q_zero (q : Q) : (q == 0)%Q -> truthy_Q (Some q) = false.
Proof. intro Hq; simpl; apply Qeq_bool_iff in Hq; now rewrite Hq. Qed.

(** The adapter keeps its rates exactly when both configured rates are truthy. *)
Lemma AnthropicAdapter_new_rates (config : VendorConfig) (mc : ModelConfig) :
  truthy_Q (inputTokenCost (AnthropicAdapter_new config mc)) &&
  truthy_Q (outputTokenCost (AnthropicAdapter_new config mc))
  = truthy_Q (mc_inputTokenCost mc) && truthy_Q (mc_outputTokenCost mc).
Proof.
  unfold AnthropicAdapter_new; simpl.
  destruct (truthy_Q (mc_inputTokenCost mc) && truthy_Q (mc_outputTokenCost mc)) eqn:E;
    [exact E | reflexivity].
Qed.

Lemma compute_usage_some_iff (a : AnthropicAdapter) (u : VendorUsage) :
  compute_usage a u <> None <->
  truthy_Z (input_tokens u) && truthy_Z (output_tokens u)
  && truthy_Q (inputTokenCost a) && truthy_Q (outputTokenCost a) = true.
Proof.
  unfold compute_usage.
  destruct (truthy_Z (input_tokens u) && truthy_Z (output_tokens u)
            && truthy_Q (inputTokenCost a) && truthy_Q (outputTokenCost a)) eqn:E.
  - split; [reflexivity|intros _].
    apply andb_prop in E as [E Hoc]; apply andb_prop in E as [E Hic];
      apply andb_prop in E as [Hit Hot].
    destruct (truthy_Z_true _ Hit) as [it [-> _]].
    destruct (truthy_Z_true _ Hot) as [ot [-> _]].
    destruct (truthy_Q_true _ Hic) as [ic [-> _]].
    destruct (truthy_Q_true _ Hoc) as [oc [-> _]].
    discriminate.
  - split; [intro H; now exfalso | discriminate].
Qed.

Lemma compute_usage_some (a : AnthropicAdapter) (u : VendorUsage) (us : UsageResponse) :
  compute_usage a u = Some us ->
  exists it ot ic oc,
    input_tokens u = Some it /\ output_tokens u = Some ot /\
    inputTokenCost a = Some ic /\ outputTokenCost a = Some oc /\
    inputCost us = computeResponseCost it ic /\ outputCost us = computeResponseCost ot oc /\
    totalCost us = (inputCost us + outputCost us)%Q.
Proof.
  unfold compute_usage.
  destruct (_ && _ && _ && _); [|discriminate].
  destruct (input_tokens u) as [it|], (output_tokens u) as [ot|],
           (inputTokenCost a) as [ic|], (outputTokenCost a) as [oc|];
    try discriminate.
  intro H; injection H as <-.
  exists it, ot, ic, oc; repeat split.
Qed.

(** The adapter of the scenario: per-million rates 15 and 75, that is
    per-token rates 15/1,000,000 and 75/1,000,000. *)
Definition opus_config : ModelConfig :=
  mkModelConfig "claude-3-opus-20240229" true false true (Some (15 # 1)%Q) (Some (75 # 1)%Q).

Definition opus_adapter : AnthropicAdapter :=
  AnthropicAdapter_new (mkVendorConfig "test-anthropic-key" None) opus_config.

Definition basic_options : AIRequestOptions :=
  mkOptions "claude-3-opus-20240229"
    [mkMessage "user" (ContentBlocks [TextBlock "Hello Claude!"])] None None None false None.

Definition reply_with (it ot : option Z) : VendorMessage :=
  mkVendorMessage [VText "Hi there!"] (mkVendorUsage it ot).

(** C4 (as stated, refuted): both token counts are present in the vendor's
    response (input_tokens = 0, output_tokens = 5) and both rates are
    configured, yet [generateResponse] returns no usage. *)
Lemma C4_present_zero_tokens_no_usage :
  input_tokens (resp_usage (reply_with (Some 0%Z) (Some 5%Z))) = Some 0%Z /\
  output_tokens (resp_usage (reply_with (Some 0%Z) (Some 5%Z))) = Some 5%Z /\
  inputTokenCost opus_adapter = Some (15 # 1)%Q /\
  outputTokenCost opus_adapter = Some (75 # 1)%Q /\
  generateResponse (fun _ => Ok (reply_with (Some 0%Z) (Some 5%Z))) opus_adapter basic_options
    = Ok (mkAIResponse "assistant" [TextBlock "Hi there!"] None).
Proof. repeat split; vm_compute; reflexivity. Qed.

(** C4 (amended): after a successful vendor call, [generateResponse] returns
    usage exactly when both token counts are present and non-zero and both
    configured rates are present and non-zero; the costs are then
    tokenCount * (rate / 1,000,000) each and their sum; with rates 15 and 75
    per million and 10 and 5 tokens they are 0.00015, 0.000375, 0.000525. *)
Theorem C4_usage_when_truthy (client : MessageCreateParams -> res VendorMessage)
  (config : VendorConfig) (mc : ModelConfig) (o : AIRequestOptions) (resp : VendorMessage)
  (Hcall : client (build_request (AnthropicAdapter_new config mc) o) = Ok resp) :
  exists r,
    generateResponse client (AnthropicAdapter_new config mc) o = Ok r /\
    (ai_usage r <> None <->
       truthy_Z (input_tokens (resp_usage resp)) && truthy_Z (output_tokens (resp_usage resp))
       && truthy_Q (mc_inputTokenCost mc) && truthy_Q (mc_outputTokenCost mc) = true) /\
    (forall us, ai_usage r = Some us ->
       exists it ot ic oc,
         input_tokens (resp_usage resp) = Some it /\ output_tokens (resp_usage resp) = Some ot /\
         mc_inputTokenCost mc = Some ic /\ mc_outputTokenCost mc = Some oc /\
         inputCost us = computeResponseCost it ic /\ outputCost us = computeResponseCost ot oc /\
         totalCost us = (inputCost us + outputCost us)%Q) /\
    (input_tokens (resp_usage resp) = Some 10%Z -> output_tokens (resp_usage resp) = Some 5%Z ->
     mc_inputTokenCost mc = Some (15 # 1)%Q -> mc_outputTokenCost mc = Some (75 # 1)%Q ->
     exists us, ai_usage r = Some us /\
       (inputCost us == 3 # 20000)%Q /\ (outputCost us == 3 # 8000)%Q /\
       (totalCost us == 21 # 40000)%Q).
Proof.
  eexists; split; [exact (generateResponse_ok _ _ _ _ Hcall)|]; simpl.
  split; [|split].
  - rewrite compute_usage_some_iff.
    rewrite <- !andb_assoc, AnthropicAdapter_new_rates; reflexivity.
  - intros us Hus.
    destruct (compute_usage_some _ _ _ Hus) as (it & ot & ic & oc & H1 & H2 & H3 & H4 & H5 & H6 & H7).
    exists it, ot, ic, oc; repeat split; try assumption.
    + unfold AnthropicAdapter_new in H3; simpl in H3.
      destruct (_ && _); [exact H3 | discriminate].
    + unfold AnthropicAdapter_new in H4; simpl in H4.
      destruct (_ && _); [exact H4 | discriminate].
  - intros Hit Hot Hic Hoc.
    unfold compute_usage, AnthropicAdapter_new; simpl.
    rewrite Hit, Hot, Hic, Hoc; simpl.
    eexists; split; [reflexivity|].
    repeat split; vm_compute; reflexivity.
Qed.

Lemma C4_usage_witness :
  (fun _ : MessageCreateParams => Ok (reply_with (Some 10%Z) (Some 5%Z)))
      (build_request opus_adapter basic_options) = Ok (reply_with (Some 10%Z) (Some 5%Z)) /\
  exists r,
    generateResponse (fun _ => Ok (reply_with (Some 10%Z) (Some 5%Z))) opus_adapter basic_options = Ok r /\
    (ai_usage r <> None <->
       truthy_Z (Some 10%Z) && truthy_Z (Some 5%Z)
       && truthy_Q (mc_inputTokenCost opus_config) && truthy_Q (mc_outputTokenCost opus_config) = true) /\
    (forall us, ai_usage r = Some us ->
       exists it ot ic oc,
         Some 10%Z = Some it /\ Some 5%Z = Some ot /\
         mc_inputTokenCost opus_config = Some ic /\ mc_outputTokenCost opus_config = Some oc /\
         inputCost us = computeResponseCost it ic /\ outputCost us = computeResponseCost ot oc /\
         totalCost us = (inputCost us + outputCost us)%Q) /\
    (Some 10%Z = Some 10%Z -> Some 5%Z = Some 5%Z ->
     mc_inputTokenCost opus_config = Some (15 # 1)%Q -> mc_outputTokenCost opus_config = Some (75 # 1)%Q ->
     exists us, ai_usage r = Some us /\
       (inputCost us == 3 # 20000)%Q /\ (outputCost us == 3 # 8000)%Q /\
       (totalCost us == 21 # 40000)%Q).
Proof.
  split; [reflexivity|].
  exact (C4_usage_when_truthy (fun _ => Ok (reply_with (Some 10%Z) (Some 5%Z)))
           (mkVendorConfig "test-anthropic-key" None) opus_config basic_options
           (reply_with (Some 10%Z) (Some 5%Z)) eq_refl).
Defined.

(** C10: the rate check of the constructor and the usage check of
    [generateResponse] test truthiness: a present token count of 0, a
    configured rate of 0, or a single configured rate all leave [usage]
    out; in the rate cases the adapter stores neither rate. *)
Theorem C10_zero_or_single_values_omit_usage (client : MessageCreateParams -> res VendorMessage)
  (config : VendorConfig) (mc : ModelConfig) (o : AIRequestOptions) (resp : VendorMessage)
  (Hcall : client (build_request (AnthropicAdapter_new config mc) o) = Ok resp)
  (Hcase : input_tokens (resp_usage resp) = Some 0%Z \/ output_tokens (resp_usage resp) = Some 0%Z \/
           (exists q, mc_inputTokenCost mc = Some q /\ (q == 0)%Q) \/
           (exists q, mc_outputTokenCost mc = Some q /\ (q == 0)%Q) \/
           mc_inputTokenCost mc = None \/ mc_outputTokenCost mc = None) :
  generateResponse client (AnthropicAdapter_new config mc) o
    = Ok (mkAIResponse "assistant" (map_response_content (resp_content resp)) None) /\
  ((exists q, mc_inputTokenCost mc = Some q /\ (q == 0)%Q) \/
   (exists q, mc_outputTokenCost mc = Some q /\ (q == 0)%Q) \/
   mc_inputTokenCost mc = None \/ mc_outputTokenCost mc = None ->
   inputTokenCost (AnthropicAdapter_new config mc) = None /\
   outputTokenCost (AnthropicAdapter_new config mc) = None).
Proof.
  assert (Hrates : (exists q, mc_inputTokenCost mc = Some q /\ (q == 0)%Q) \/
                   (exists q, mc_outputTokenCost mc = Some q /\ (q == 0)%Q) \/
                   mc_inputTokenCost mc = None \/ mc_outputTokenCost mc = None ->
                   truthy_Q (mc_inputTokenCost mc) && truthy_Q (mc_outputTokenCost mc) = false).
  { intros [[q [-> Hq]] | [[q [-> Hq]] | [-> | ->]]];
      [rewrite (truthy_Q_zero q Hq) | rewrite (truthy_Q_zero q Hq) |..];
      simpl; rewrite ?andb_false_r; reflexivity. }
  split.
  - rewrite (generateResponse_ok _ _ _ _ Hcall).
    destruct (compute_usage (AnthropicAdapter_new config mc) (resp_usage resp)) eqn:E;
      [|reflexivity].
    exfalso.
    assert (Hg : compute_usage (AnthropicAdapter_new config mc) (resp_usage resp) <> None)
      by (rewrite E; discriminate).
    apply compute_usage_some_iff in Hg.
    rewrite <- !andb_assoc, AnthropicAdapter_new_rates in Hg.
    destruct Hcase as [Hi | [Ho | Hr]].
    + rewrite Hi in Hg; discriminate.
    + rewrite Ho, andb_false_r in Hg; simpl in Hg; discriminate.
    + rewrite (Hrates Hr), !andb_false_r in Hg; discriminate.
  - intro Hr; unfold AnthropicAdapter_new; simpl; rewrite (Hrates Hr); split; reflexivity.
Qed.

Lemma C10_zero_tokens_witness :
  (fun _ : MessageCreateParams => Ok (reply_with (Some 0%Z) (Some 5%Z)))
      (build_request opus_adapter basic_options) = Ok (reply_with (Some 0%Z) (Some 5%Z)) /\
  generateResponse (fun _ => Ok (reply_with (Some 0%Z) (Some 5%Z))) opus_adapter basic_options
    = Ok (mkAIResponse "assistant" [TextBlock "Hi there!"] None).
Proof.
  split; [reflexivity|].
  apply (proj1 (C10_zero_or_single_values_omit_usage (fun _ => Ok (reply_with (Some 0%Z) (Some 5%Z)))
           (mkVendorConfig "test-anthropic-key" None) opus_config basic_options
           (reply_with (Some 0%Z) (Some 5%Z)) eq_refl (or_introl eq_refl))).
Defined.

(** A JSON value with an own ["type"] key (only objects have one). *)
Definition has_type_field (j : json) : bool :=
  match j with
  | JObj kvs => existsb (fun kv => String.eqb (fst kv) "type") kvs
  | _ => false
  end.

(** The malformed tool schemas of the spec: an unparseable string, a string
    that parses to something without a ["type"] key (a non-object, [null],
    an array or an object lacking it), an object lacking ["type"], or no
    schema at all. *)
Inductive malformed_schema (JSON_parse : string -> res json) : jsval -> Prop :=
| unparseable_string s e :
    JSON_parse s = Throw e -> malformed_schema JSON_parse (JSValue (JStr s))
| parsed_without_type s j :
    JSON_parse s = Ok j -> has_type_field j = false -> malformed_schema JSON_parse (JSValue (JStr s))
| value_without_type j :
    (forall s, j <> JStr s) -> has_type_field j = false -> malformed_schema JSON_parse (JSValue j)
| undefined_schema : malformed_schema JSON_parse JSUndefined.

Lemma js_in_object (j : json) :
  is_object_not_null (JSValue j) = true -> js_in "type" j = Ok (has_type_field j).
Proof. destruct j; simpl; try discriminate; reflexivity. Qed.

Lemma select_schema_ok (JSON_parse : string -> res json) (tool : MCPTool) :
  exists j, select_schema JSON_parse tool = Ok j.
Proof.
  unfold select_schema.
  destruct (input_schema tool) as [|j]; [eexists; reflexivity|].
  destruct j as [| | |s| |kvs]; try (eexists; reflexivity).
  - unfold try_catch.
    destruct (bind _ _) as [j|e]; eexists; reflexivity.
  - simpl; destruct (existsb _ kvs); eexists; reflexivity.
Qed.

Lemma map_res_ok {A B} (f : A -> res B) (l : list A) :
  (forall x, exists y, f x = Ok y) -> exists ys, map_res f l = Ok ys.
Proof.
  intro Hf; induction l as [|x l IH]; simpl; [eexists; reflexivity|].
  destruct (Hf x) as [y ->]; destruct IH as [ys ->]; eexists; reflexivity.
Qed.

Lemma format_tools_ok (JSON_parse : string -> res json) (tools : option (list MCPTool)) :
  exists t, format_tools JSON_parse tools = Ok t.
Proof.
  unfold format_tools.
  destruct tools as [[|x xs]|]; try (eexists; reflexivity).
  assert (Hf : forall t, exists y, map_tool JSON_parse t = Ok y).
  { intro t; unfold map_tool; destruct (select_schema_ok JSON_parse t) as [j ->].
    eexists; reflexivity. }
  destruct (map_res_ok (map_tool JSON_parse) (x :: xs) Hf) as [ys Hys].
  change (exists t, bind (map_res (map_tool JSON_parse) (x :: xs)) (fun f => Ok (Some f)) = Ok t).
  rewrite Hys; eexists; reflexivity.
Qed.

(** C7: mapping-local failures never abort a call. Every tool whose schema is
    malformed is mapped with the fallback schema [{type: "object",
    properties: {}}]; mapping the tool list of a chat never throws; and an
    inbound block of a kind the adapter does not recognise is left out of
    the canonical content, the rest kept in order. *)
Theorem C7_mapping_failures_absorbed :
  (forall (JSON_parse : string -> res json) (tool : MCPTool),
     malformed_schema JSON_parse (input_schema tool) ->
     map_tool JSON_parse tool
       = Ok (mkAnthropicTool (tool_name tool) (tool_description tool) fallbackSchema)) /\
  (forall (JSON_parse : string -> res json) (tools : option (list MCPTool)),
     exists t, format_tools JSON_parse tools = Ok t) /\
  (forall (v : VendorBlock) (l1 l2 : list VendorBlock),
     recognized_inbound v = false ->
     map_response_content (l1 ++ v :: l2)%list
       = (map_response_content l1 ++ map_response_content l2)%list).
Proof.
  split; [|split].
  - intros JSON_parse tool Hm; unfold map_tool, select_schema.
    inversion Hm as [s e Hp Hs | s j Hp Ht Hs | j Hns Ht Hs | Hs]; rewrite <- ?Hs.
    + unfold try_catch; rewrite Hp; reflexivity.
    + unfold try_catch; rewrite Hp; simpl.
      destruct (is_object_not_null (JSValue j)) eqn:Ho; [|reflexivity].
      rewrite (js_in_object j Ho), Ht; reflexivity.
    + destruct j as [| | |s| |]; try reflexivity.
      * exfalso; exact (Hns s eq_refl).
      * simpl in Ht |- *; rewrite Ht; reflexivity.
    + reflexivity.
  - exact format_tools_ok.
  - intros v l1 l2 Hv.
    rewrite map_response_content_app; f_equal.
    destruct v; try discriminate; reflexivity.
Qed.

Definition throwing_parse (s : string) : res json :=
  if String.eqb s "not json" then Throw (SyntaxError "Unexpected token o in JSON at position 1")
  else Ok (JObj [("type", JStr "object")]).

Lemma C7_not_json_witness :
  malformed_schema throwing_parse (JSValue (JStr "not json")) /\
  map_tool throwing_parse (mkMCPTool "search" "web search" (JSValue (JStr "not json")))
    = Ok (mkAnthropicTool "search" "web search" fallbackSchema) /\
  map_response_content [VText "a"; VRedactedThinking "opaque"; VOther "server_tool_use"; VText "b"]
    = [TextBlock "a"; TextBlock "b"].
Proof.
  split; [apply (unparseable_string _ _ (SyntaxError "Unexpected token o in JSON at position 1")); reflexivity|].
  split.
  - apply (proj1 C7_mapping_failures_absorbed).
    apply (unparseable_string _ _ (SyntaxError "Unexpected token o in JSON at position 1")); reflexivity.
  - exact (eq_trans (proj2 (proj2 C7_mapping_failures_absorbed) (VRedactedThinking "opaque") [VText "a"]
                       [VOther "server_tool_use"; VText "b"] eq_refl) eq_refl).
Defined.

(** C5: [sendChat] maps the chat's tools (never failing), sends
    [responseHistory] followed by a user message holding [prompt] as one
    text block (only for a non-empty prompt), sets [thinkingMode] to
    [budgetTokens > 0] (a budget of 500 gives [thinkingMode = true] and
    [budgetTokens = 500]; no budget gives [false] and no budget), delegates to
    [generateResponse] and returns its role, content and usage unchanged. *)
Theorem C5_sendChat_delegates (client : MessageCreateParams -> res VendorMessage)
  (JSON_parse : string -> res json) (a : AnthropicAdapter) (chat : Chat) :
  (exists tools,
     format_tools JSON_parse (mcpAvailableTools chat) = Ok tools /\
     opt_messages (sendChat_options chat tools)
       = (responseHistory chat ++
          (if String.eqb (prompt chat) "" then []
           else [mkMessage "user" (ContentBlocks [TextBlock (prompt chat)])]))%list /\
     opt_thinkingMode (sendChat_options chat tools)
       = match budgetTokens chat with Some n => Z.ltb 0 n | None => false end /\
     sendChat client JSON_parse a chat
       = match generateResponse client a (sendChat_options chat tools) with
         | Ok r => Ok (mkChatResponse (ai_role r) (ai_content r) (ai_usage r))
         | Throw e => Throw e
         end) /\
  (forall m h p sp mt ts tools,
     opt_thinkingMode (sendChat_options (mkChat m h p sp mt (Some 500%Z) ts) tools) = true /\
     opt_budgetTokens (sendChat_options (mkChat m h p sp mt (Some 500%Z) ts) tools) = Some 500%Z /\
     opt_thinkingMode (sendChat_options (mkChat m h p sp mt None ts) tools) = false /\
     opt_budgetTokens (sendChat_options (mkChat m h p sp mt None ts) tools) = None).
Proof.
  split.
  - destruct (format_tools_ok JSON_parse (mcpAvailableTools chat)) as [tools Ht].
    exists tools; split; [exact Ht|]. split; [reflexivity|]. split.
    + simpl; destruct (budgetTokens chat); reflexivity.
    + unfold sendChat; rewrite Ht; simpl.
      destruct (generateResponse client a (sendChat_options chat tools)); reflexivity.
  - intros; repeat split.
Qed.

Definition thinking_options (mt bt : option Z) : AIRequestOptions :=
  mkOptions "claude-3-opus-20240229"
    [mkMessage "user" (ContentBlocks [TextBlock "Think about this"])] mt bt None true None.

(** C6 (as stated, refuted): with thinking honoured, a non-positive budget is
    not replaced by half of [maxTokens]: [budgetTokens = -5] is sent as is
    (the claim gives 512); and [maxTokens = 0] with no budget sends 512 (the
    claim gives the floor of 0 / 2 = 0). *)
Lemma C6_nonpositive_budget_passed_through :
  isThinkingCapable opus_adapter = true /\
  req_thinking (build_request opus_adapter (thinking_options None (Some (-5)%Z))) = Some (-5)%Z /\
  Some (-5)%Z <> Some (Z.div 1024 2) /\
  req_thinking (build_request opus_adapter (thinking_options (Some 0%Z) None)) = Some 512%Z /\
  Some 512%Z <> Some (Z.div 0 2).
Proof. repeat split; try reflexivity; discriminate. Qed.

(** C6 (amended): the request [generateResponse] sends has [max_tokens] equal
    to [maxTokens] when it is set and non-zero, else 1024; it carries a
    thinking block exactly when [thinkingMode] is on and the adapter is
    thinking-capable; its budget is [budgetTokens] when set and non-zero,
    else the floor of half of [max_tokens] (512 when [maxTokens] is unset). *)
Theorem C6_request_token_fields (client : MessageCreateParams -> res VendorMessage)
  (a : AnthropicAdapter) (o : AIRequestOptions) :
  generateResponse client a o = bind (client (build_request a o)) (fun response =>
    Ok (mkAIResponse "assistant" (map_response_content (resp_content response))
                     (compute_usage a (resp_usage response)))) /\
  req_max_tokens (build_request a o)
    = match opt_maxTokens o with
      | Some n => if Z.eqb n 0 then 1024%Z else n
      | None => 1024%Z
      end /\
  (req_thinking (build_request a o) <> None <->
     opt_thinkingMode o = true /\ isThinkingCapable a = true) /\
  match req_thinking (build_request a o) with
  | Some b =>
      b = match opt_budgetTokens o with
          | Some n => if Z.eqb n 0 then Z.div (req_max_tokens (build_request a o)) 2 else n
          | None => Z.div (req_max_tokens (build_request a o)) 2
          end
  | None => True
  end.
Proof.
  split; [reflexivity|]. split; [reflexivity|]. split.
  - unfold build_request; simpl.
    destruct (opt_thinkingMode o), (isThinkingCapable a); simpl;
      split; try discriminate; try tauto; intros [H1 H2]; discriminate.
  - unfold build_request; simpl.
    destruct (opt_thinkingMode o && isThinkingCapable a); [|exact I].
    unfold or_Z; destruct (opt_budgetTokens o) as [n|]; reflexivity.
Qed.

(** ** Further properties of the adapter *)

Definition is_canonical_inbound (b : ContentBlock) : bool :=
  match b with
  | TextBlock _ | ThinkingBlock _ _ | ToolUseBlock _ _ => true
  | _ => false
  end.

Lemma out_blocks_app (l1 l2 : list ContentBlock) :
  out_blocks (l1 ++ l2)%list = (out_blocks l1 ++ out_blocks l2)%list.
Proof.
  induction l1 as [|b l1 IH]; simpl; [reflexivity|]; destruct b; simpl; rewrite ?IH; reflexivity.
Qed.

Lemma out_blocks_length (l : list ContentBlock) :
  length (out_blocks l) = length (filter supported_by_anthropic l).
Proof.
  induction l as [|b l IH]; simpl; [reflexivity|]; destruct b; simpl; rewrite ?IH; reflexivity.
Qed.

(** Outbound filtering: when at least one block is Text or Thinking, the
    message is sent as the block list the filter keeps; one vendor block per
    kept block, unsupported blocks dropped without reordering the rest. *)
Theorem format_message_filters_blocks (r : string) (l : list ContentBlock)
  (Hsome : existsb supported_by_anthropic l = true) :
  wire_content (format_message (mkMessage r (ContentBlocks l))) = WireBlocks (out_blocks l) /\
  length (out_blocks l) = length (filter supported_by_anthropic l) /\
  (forall l1 b l2, l = (l1 ++ b :: l2)%list -> supported_by_anthropic b = false ->
     out_blocks l = out_blocks (l1 ++ l2)%list).
Proof.
  split; [|split].
  - rewrite format_message_blocks; simpl.
    destruct (out_blocks l) eqn:E; [|reflexivity].
    exfalso. pose proof (out_blocks_length l) as HL; rewrite E in HL; simpl in HL.
    destruct (filter supported_by_anthropic l) eqn:F; [|discriminate].
    apply existsb_exists in Hsome as [b [Hin Hb]].
    assert (In b (filter supported_by_anthropic l)) by (apply filter_In; auto).
    rewrite F in H; exact H.
  - apply out_blocks_length.
  - intros l1 b l2 -> Hb. rewrite !out_blocks_app; simpl.
    destruct b; try discriminate; reflexivity.
Qed.

Lemma format_message_filters_witness :
  existsb supported_by_anthropic [ImageBlock "u"; TextBlock "a"; ImageDataBlock "m" "d"; ThinkingBlock "t" "s"] = true /\
  wire_content (format_message (mkMessage "user"
     (ContentBlocks [ImageBlock "u"; TextBlock "a"; ImageDataBlock "m" "d"; ThinkingBlock "t" "s"])))
   = WireBlocks (out_blocks [ImageBlock "u"; TextBlock "a"; ImageDataBlock "m" "d"; ThinkingBlock "t" "s"]) /\
  length (out_blocks [ImageBlock "u"; TextBlock "a"; ImageDataBlock "m" "d"; ThinkingBlock "t" "s"])
   = length (filter supported_by_anthropic [ImageBlock "u"; TextBlock "a"; ImageDataBlock "m" "d"; ThinkingBlock "t" "s"]) /\
  (forall l1 b l2, [ImageBlock "u"; TextBlock "a"; ImageDataBlock "m" "d"; ThinkingBlock "t" "s"] = (l1 ++ b :: l2)%list ->
     supported_by_anthropic b = false ->
     out_blocks [ImageBlock "u"; TextBlock "a"; ImageDataBlock "m" "d"; ThinkingBlock "t" "s"] = out_blocks (l1 ++ l2)%list).
Proof.
  split; [reflexivity|].
  apply format_message_filters_blocks; reflexivity.
Defined.

(** Inbound filtering: the canonical content has one block per recognised
    vendor block (text, thinking, tool_use) and holds only Text, Thinking and
    ToolUse blocks. *)
Theorem map_response_content_shape (vs : list VendorBlock) :
  length (map_response_content vs) = length (filter recognized_inbound vs) /\
  forallb is_canonical_inbound (map_response_content vs) = true.
Proof.
  induction vs as [|v vs [IHl IHf]]; simpl; [split; reflexivity|].
  destruct v; simpl; rewrite ?IHl, ?IHf; split; reflexivity.
Qed.

(** A rejected vendor call reaches the caller of [sendChat] unchanged: the
    tool mapping before the call never fails, and when the vendor client
    rejects the request [sendChat] builds, [generateResponse] and [sendChat]
    fail with that same error. *)
Theorem sendChat_propagates_vendor_error (client : MessageCreateParams -> res VendorMessage)
  (JSON_parse : string -> res json) (a : AnthropicAdapter) (chat : Chat) (e : js_error) :
  exists tools,
    format_tools JSON_parse (mcpAvailableTools chat) = Ok tools /\
    (client (build_request a (sendChat_options chat tools)) = Throw e ->
     generateResponse client a (sendChat_options chat tools) = Throw e /\
     sendChat client JSON_parse a chat = Throw e).
Proof.
  destruct (format_tools_ok JSON_parse (mcpAvailableTools chat)) as [tools Htools].
  exists tools; split; [exact Htools|]. intro Hfail.
  assert (Hg : generateResponse client a (sendChat_options chat tools) = Throw e)
    by (unfold generateResponse; rewrite Hfail; reflexivity).
  split; [exact Hg|].
  unfold sendChat; rewrite Htools; simpl; rewrite Hg; reflexivity.
Qed.

(** The thinking block of a request built by [sendChat]: it is sent exactly
    when the adapter is thinking-capable and [budgetTokens > 0], and then its
    budget is [budgetTokens] itself (never the half-of-max default). *)
Theorem sendChat_request_thinking (a : AnthropicAdapter) (chat : Chat)
  (tools : option (list AnthropicTool)) :
  req_thinking (build_request a (sendChat_options chat tools))
    = match budgetTokens chat with
      | Some n => if isThinkingCapable a && Z.ltb 0 n then Some n else None
      | None => None
      end.
Proof.
  unfold build_request, sendChat_options; simpl.
  destruct (budgetTokens chat) as [n|]; simpl.
  - destruct (Z.ltb_spec 0 n) as [Hn|Hn]; simpl.
    + destruct (isThinkingCapable a); [|reflexivity].
      destruct (Z.eqb_spec n 0); [lia|]. simpl.
      destruct (Z.eqb_spec n 0); [lia|reflexivity].
    + rewrite andb_false_r; reflexivity.
  - reflexivity.
Qed.

(** The token limit and system prompt of a request built by [sendChat]:
    [max_tokens] is [chat.maxTokens] when it is set and non-zero, else 1024;
    the system prompt is sent only when it is a non-empty string; the model
    and the mapped tools are passed as they are. *)
Theorem sendChat_request_limits (a : AnthropicAdapter) (chat : Chat)
  (tools : option (list AnthropicTool)) :
  req_max_tokens (build_request a (sendChat_options chat tools)) = or_Z (maxTokens chat) 1024 /\
  req_system (build_request a (sendChat_options chat tools))
    = match systemPrompt chat with
      | Some s => if String.eqb s "" then None else Some s
      | None => None
      end /\
  req_model (build_request a (sendChat_options chat tools)) = chat_model chat /\
  req_tools (build_request a (sendChat_options chat tools)) = tools.
Proof.
  unfold build_request, sendChat_options; simpl.
  repeat split.
  unfold or_Z, or_undefined_Z.
  destruct (maxTokens chat) as [n|]; [|reflexivity].
  destruct (Z.eqb n 0) eqn:E; [reflexivity|]. rewrite E; reflexivity.
Qed.

(** The prompt of a chat is the last message of the request [sendChat]
    builds: a user message holding exactly one text block with the prompt,
    after the history's messages in order. *)
Theorem sendChat_request_prompt_last (a : AnthropicAdapter) (chat : Chat)
  (tools : option (list AnthropicTool)) (Hp : prompt chat <> "") :
  req_messages (build_request a (sendChat_options chat tools))
    = (map format_message (responseHistory chat) ++
       [mkWireMessage RoleUser (WireBlocks [ParamText (prompt chat)])])%list.
Proof.
  unfold build_request, sendChat_options, messages_to_send; simpl.
  destruct (String.eqb_spec (prompt chat) "") as [E|_]; [contradiction|].
  rewrite map_app; reflexivity.
Qed.

Lemma sendChat_request_prompt_last_witness :
  prompt (mkChat "claude" [mkMessage "assistant" (ContentString "Previous answer")] "Current question"
            None None None None) <> "" /\
  req_messages (build_request opus_adapter
     (sendChat_options (mkChat "claude" [mkMessage "assistant" (ContentString "Previous answer")]
                         "Current question" None None None None) None))
    = (map format_message [mkMessage "assistant" (ContentString "Previous answer")] ++
       [mkWireMessage RoleUser (WireBlocks [ParamText "Current question"])])%list.
Proof.
  split; [discriminate|].
  apply (sendChat_request_prompt_last opus_adapter
           (mkChat "claude" [mkMessage "assistant" (ContentString "Previous answer")]
              "Current question" None None None None) None).
  discriminate.
Defined.

(** Every tool mapping succeeds, keeps name and description, and yields a
    schema with a ["type"] key. A schema with a ["type"] key is kept: an
    object schema (not a string) is passed on as it is when it has one, a
    string schema is replaced by its parsed value when that has one; every
    other schema (no schema, a primitive, [null], an array, an object or a
    parsed value lacking ["type"], an unparseable string) becomes the
    fallback schema. *)
Theorem map_tool_schema_has_type (JSON_parse : string -> res json) (tool : MCPTool) :
  exists at_,
    map_tool JSON_parse tool = Ok at_ /\
    at_name at_ = tool_name tool /\ at_description at_ = tool_description tool /\
    has_type_field (at_input_schema at_) = true /\
    (forall j, input_schema tool = JSValue j -> (forall s, j <> JStr s) ->
       at_input_schema at_ = if has_type_field j then j else fallbackSchema) /\
    (forall s, input_schema tool = JSValue (JStr s) ->
       at_input_schema at_ =
         match JSON_parse s with
         | Ok j => if has_type_field j then j else fallbackSchema
         | Throw _ => fallbackSchema
         end) /\
    (input_schema tool = JSUndefined -> at_input_schema at_ = fallbackSchema).
Proof.
  unfold map_tool, select_schema.
  destruct (input_schema tool) as [|j] eqn:Es.
  - eexists; split; [reflexivity|]; simpl.
    repeat split; intros; try discriminate; reflexivity.
  - destruct j as [| | |s|vs|kvs].
    1-3,5:
      eexists; split; [reflexivity|]; simpl;
      repeat split; try reflexivity; intros ? Hj;
      try (injection Hj as <-); try discriminate; reflexivity.
    + unfold try_catch.
      assert (Hr : forall j' : json, JSValue (JStr s) = JSValue j' -> (forall s', j' <> JStr s') -> False)
        by (intros j' Hj Hns; injection Hj as <-; exact (Hns s eq_refl)).
      destruct (JSON_parse s) as [p|err] eqn:Ep; simpl.
      * destruct (is_object_not_null (JSValue p)) eqn:Ho; simpl.
        -- rewrite (js_in_object p Ho); simpl.
           destruct (has_type_field p) eqn:Ht; simpl.
           ++ eexists; split; [reflexivity|]; simpl.
              repeat split; first [(exact Ht) | (intros j' Hj Hns; exfalso; exact (Hr j' Hj Hns)) | (intros s' Hs; injection Hs as <-; rewrite Ep, Ht; reflexivity) | (discriminate) | reflexivity].
           ++ eexists; split; [reflexivity|]; simpl.
              repeat split; first [(intros j' Hj Hns; exfalso; exact (Hr j' Hj Hns)) | (intros s' Hs; injection Hs as <-; rewrite Ep, Ht; reflexivity) | (discriminate) | reflexivity].
        -- assert (Ht : has_type_field p = false)
             by (destruct p; try reflexivity; discriminate Ho).
           eexists; split; [reflexivity|]; simpl.
           repeat split; first [(intros j' Hj Hns; exfalso; exact (Hr j' Hj Hns)) | (intros s' Hs; injection Hs as <-; rewrite Ep, Ht; reflexivity) | (discriminate) | reflexivity].
      * eexists; split; [reflexivity|]; simpl.
        repeat split; first [(intros j' Hj Hns; exfalso; exact (Hr j' Hj Hns)) | (intros s' Hs; injection Hs as <-; rewrite Ep; reflexivity) | (discriminate) | reflexivity].
    + simpl. destruct (existsb (fun kv => String.eqb (fst kv) "type") kvs) eqn:Ht; simpl.
      * eexists; split; [reflexivity|]; simpl.
        repeat split; first [(exact Ht) | (intros j' Hj _; injection Hj as <-; simpl; rewrite Ht; reflexivity) | (intros s' Hs; discriminate) | (discriminate) | reflexivity].
      * eexists; split; [reflexivity|]; simpl.
        repeat split; first [(intros j' Hj _; injection Hj as <-; simpl; rewrite Ht; reflexivity) | (intros s' Hs; discriminate) | (discriminate) | reflexivity].
Qed.

(** A schema given as an object and the same schema given as its JSON text
    map to the same vendor tool, for any parser that reads back what
    [JSON.stringify] writes (the schema itself not being a string). *)
Theorem map_tool_string_object_agree (JSON_parse : string -> res json)
  (name desc : string) (j : json)
  (Hparse : JSON_parse (JSON_stringify j) = Ok j) (Hns : forall s, j <> JStr s) :
  map_tool JSON_parse (mkMCPTool name desc (JSValue (JStr (JSON_stringify j))))
    = map_tool JSON_parse (mkMCPTool name desc (JSValue j)).
Proof.
  unfold map_tool, select_schema; simpl.
  unfold try_catch; rewrite Hparse; simpl.
  destruct j as [| | |s| |kvs]; try reflexivity.
  - exfalso; exact (Hns s eq_refl).
  - simpl; destruct (existsb _ kvs); reflexivity.
Qed.

Definition schema_example : json :=
  JObj [("type", JStr "object"); ("properties", JObj [("q", JObj [("type", JStr "string")])])].

Definition example_parse (s : string) : res json :=
  if String.eqb s (JSON_stringify schema_example) then Ok schema_example
  else Throw (SyntaxError "Unexpected token").

Lemma map_tool_string_object_agree_witness :
  example_parse (JSON_stringify schema_example) = Ok schema_example /\
  (forall s, schema_example <> JStr s) /\
  map_tool example_parse (mkMCPTool "search" "web" (JSValue (JStr (JSON_stringify schema_example))))
    = map_tool example_parse (mkMCPTool "search" "web" (JSValue schema_example)).
Proof.
  split; [reflexivity|]. split; [intros s; discriminate|].
  apply map_tool_string_object_agree; [reflexivity | intros s; discriminate].
Defined.

(** The tool list [sendChat] passes on: none when the chat has no tools or an
    empty list; otherwise one vendor tool per tool, in order, with the same
    names and descriptions. *)
Theorem format_tools_preserves_tools (JSON_parse : string -> res json) (ts : list MCPTool) :
  format_tools JSON_parse None = Ok None /\
  format_tools JSON_parse (Some []) = Ok None /\
  exists ats,
    map_res (map_tool JSON_parse) ts = Ok ats /\
    map at_name ats = map tool_name ts /\
    map at_description ats = map tool_description ts /\
    format_tools JSON_parse (Some ts) = Ok (match ts with [] => None | _ => Some ats end).
Proof.
  split; [reflexivity|]. split; [reflexivity|].
  assert (H : exists ats, map_res (map_tool JSON_parse) ts = Ok ats /\
                map at_name ats = map tool_name ts /\
                map at_description ats = map tool_description ts).
  { induction ts as [|t ts IH]; simpl; [exists []; repeat split|].
    destruct (map_tool_schema_has_type JSON_parse t) as (at_ & Hm & Hn & Hd & _).
    destruct IH as (ats & Hr & Hns & Hds).
    exists (at_ :: ats); rewrite Hm; simpl; rewrite Hr; simpl.
    rewrite Hn, Hd, Hns, Hds; repeat split. }
  destruct H as (ats & Hr & Hn & Hd).
  exists ats; repeat split; try assumption.
  destruct ts as [|t ts']; [reflexivity|].
  change (bind (map_res (map_tool JSON_parse) (t :: ts')) (fun f => Ok (Some f)) = Ok (Some ats)).
  rewrite Hr; reflexivity.
Qed.

(** With thinking on, no budget (or a budget of 0) and [maxTokens] unset or
    non-negative, the default budget is non-negative and below the request's
    [max_tokens]. *)
Theorem default_budget_below_max_tokens (a : AnthropicAdapter) (o : AIRequestOptions)
  (Hon : opt_thinkingMode o && isThinkingCapable a = true)
  (Hb : truthy_Z (opt_budgetTokens o) = false)
  (Hm : match opt_maxTokens o with Some n => (0 <= n)%Z | None => True end) :
  exists b, req_thinking (build_request a o) = Some b /\
            (0 <= b)%Z /\ (b < req_max_tokens (build_request a o))%Z.
Proof.
  unfold build_request; simpl; rewrite Hon.
  assert (Hor : forall d, or_Z (opt_budgetTokens o) d = d).
  { intro d; unfold or_Z; destruct (opt_budgetTokens o) as [n|]; [|reflexivity].
    simpl in Hb; destruct (Z.eqb n 0); [reflexivity|discriminate]. }
  rewrite Hor; eexists; split; [reflexivity|].
  assert (Hpos : (0 < or_Z (opt_maxTokens o) 1024)%Z).
  { unfold or_Z; destruct (opt_maxTokens o) as [n|]; [|lia].
    destruct (Z.eqb_spec n 0); lia. }
  split; [apply Z.div_pos; lia | apply Z.div_lt; lia].
Qed.

Lemma default_budget_below_max_tokens_witness :
  opt_thinkingMode (thinking_options (Some 100%Z) None) && isThinkingCapable opus_adapter = true /\
  truthy_Z (opt_budgetTokens (thinking_options (Some 100%Z) None)) = false /\
  exists b, req_thinking (build_request opus_adapter (thinking_options (Some 100%Z) None)) = Some b /\
            (0 <= b)%Z /\ (b < req_max_tokens (build_request opus_adapter (thinking_options (Some 100%Z) None)))%Z.
Proof.
  split; [reflexivity|]. split; [reflexivity|].
  apply default_budget_below_max_tokens; [reflexivity | reflexivity | simpl; lia].
Defined.
